(** * ise_efficient_frontier/efficientfrontier.py: portfolio objectives and
      the constrained minimizer call

    A shallow embedding of [_minimize_objective], [min_risk] and
    [max_sharpe].

    Numbers.  The lambdas of lines 23, 38 and 52 are written once, over a
    record [arithmetic] of scalar operations (section [Lambdas]).  NumPy
    runs them in IEEE 754 binary64: [binary64] instantiates the record with
    Rocq's primitive floats, whose operations are those of binary64 with
    rounding to nearest even, and what is stated about a value that a
    lambda computes is stated at [binary64].  [np.matmul] and [np.dot] are
    taken with one rounding per product and per addition, the additions
    from index 0 on.

    The type [float64] with [fadd], [fmul], [fdiv] ([exact_arithmetic]) is
    an idealisation: exact rational arithmetic on the finite values, next
    to the three special values of IEEE 754.  It serves where rounding
    plays no part: shapes and exceptions, the special values, the quotient
    of a number by itself, sums of ones, and the arguments handed to the
    solver.

    Effects.  The module draws from NumPy's global random generator and calls
    [scipy.optimize.minimize]; both live outside the repository.  A function
    of the module is a program tree [prog] whose nodes are those two calls
    (with the arguments handed over) and the raising of a Python exception;
    [run] interprets a tree against a generator and a solver.

    setup.py.  The script is a function of the content of the files it
    opens: a [str] is its list of code points, an open text file the list
    of the lines not read yet. *)

From Stdlib Require Import Floats.
From Stdlib Require Import Ascii String.
From Stdlib Require Import List Bool Arith ZArith QArith Qcanon Lia.
Import ListNotations.

Set Implicit Arguments.

(** ** float64 scalars, idealised *)

(** A finite value is an exact rational and the operations on finite
    values do not round; see [binary64] below for the arithmetic that the
    code runs. *)
Inductive float64 : Type :=
| Fin (q : Qc)
| PInf
| NInf
| NaN.

Definition is_finite (a : float64) : bool :=
  match a with Fin _ => true | _ => false end.

Definition fneg (a : float64) : float64 :=
  match a with
  | Fin q => Fin (- q)%Qc
  | PInf => NInf
  | NInf => PInf
  | NaN => NaN
  end.

Definition fadd (a b : float64) : float64 :=
  match a, b with
  | NaN, _ | _, NaN => NaN
  | Fin p, Fin q => Fin (p + q)%Qc
  | PInf, NInf | NInf, PInf => NaN
  | PInf, _ | _, PInf => PInf
  | NInf, _ | _, NInf => NInf
  end.

Definition fsub (a b : float64) : float64 := fadd a (fneg b).

(** The infinity whose sign is that of [q]; NaN for [q = 0]. *)
Definition signed_inf (q : Qc) : float64 :=
  match (q ?= 0)%Qc with
  | Gt => PInf
  | Lt => NInf
  | Eq => NaN
  end.

Definition fmul (a b : float64) : float64 :=
  match a, b with
  | NaN, _ | _, NaN => NaN
  | Fin p, Fin q => Fin (p * q)%Qc
  | PInf, Fin q | Fin q, PInf => signed_inf q
  | NInf, Fin q | Fin q, NInf => signed_inf (- q)%Qc
  | PInf, PInf | NInf, NInf => PInf
  | PInf, NInf | NInf, PInf => NaN
  end.

(** True division of float64 scalars and of array entries.  NumPy does not
    raise on a zero divisor: [x / 0] is an infinity of the sign of [x], and
    [0 / 0] is NaN (a RuntimeWarning is printed, the value is returned). *)
Definition fdiv (a b : float64) : float64 :=
  match a, b with
  | NaN, _ | _, NaN => NaN
  | Fin p, Fin q =>
      if Qc_eq_dec q 0 then signed_inf p else Fin (p / q)%Qc
  | Fin _, PInf | Fin _, NInf => Fin 0%Qc
  | PInf, Fin q => if Qc_eq_dec q 0 then PInf else signed_inf q
  | NInf, Fin q => if Qc_eq_dec q 0 then NInf else signed_inf (- q)%Qc
  | PInf, PInf | PInf, NInf | NInf, PInf | NInf, NInf => NaN
  end.

Definition float64_eqb (a b : float64) : bool :=
  match a, b with
  | Fin p, Fin q => Qc_eq_bool p q
  | PInf, PInf | NInf, NInf | NaN, NaN => true
  | _, _ => false
  end.

(** ** Python exceptions and results *)

(** [ValueError] is what NumPy raises on a shape mismatch and on a negative
    size; the solver may raise exceptions of other classes. *)
Inductive exn : Type :=
| ValueError
| OtherException (class : string).

Inductive result (A : Type) : Type :=
| Ok (a : A)
| Raise (e : exn).
Arguments Ok {A} a.
Arguments Raise {A} e.

Definition is_raise {A} (r : result A) : bool :=
  match r with Raise _ => true | Ok _ => false end.

Definition rbind {A B} (r : result A) (k : A -> result B) : result B :=
  match r with
  | Ok a => k a
  | Raise e => Raise e
  end.

Definition rmap {A B} (f : A -> B) (r : result A) : result B :=
  rbind r (fun a => Ok (f a)).

(** ** Arrays *)

(** A one-dimensional float64 array. *)
Definition vec : Type := list float64.

(** A two-dimensional float64 array: its rows, and its second dimension
    (kept apart so that a [0 x k] array has a shape). *)
Record ndarray2 : Type := mk_ndarray2 {
  rows : list vec;
  shape1 : nat
}.

Definition shape0 (m : ndarray2) : nat := length (rows m).

(** An [ndarray] is rectangular. *)
Definition rectangular (m : ndarray2) : bool :=
  forallb (fun r => length r =? shape1 m) (rows m).

Definition getitem (a : vec) (i : nat) : float64 := nth i a (Fin 0%Qc).

Definition getitem2 (m : ndarray2) (i j : nat) : float64 :=
  getitem (nth i (rows m) []) j.

(** Python's builtin [sum]: a left fold from the integer 0. *)
Definition py_sum (w : vec) : float64 := fold_left fadd w (Fin 0%Qc).

(** [x.T] of a one-dimensional array is the array itself. *)
Definition T (x : vec) : vec := x.

(** [np.matmul(a, b)] for 1-D [a] and 2-D [b]: [out[j] = sum_i a[i] * b[i, j]],
    the products being added up from index 0 on; a mismatch of the core
    dimension raises ValueError. *)
Definition matmul_1d_2d (a : vec) (b : ndarray2) : result vec :=
  if length a =? shape0 b then
    Ok (map (fun j =>
               py_sum (map (fun i => fmul (getitem a i) (getitem2 b i j))
                           (seq 0 (length a))))
            (seq 0 (shape1 b)))
  else Raise ValueError.

(** [np.matmul(a, b)] and [np.dot(a, b)] for 1-D [a] and [b]: the inner
    product, ValueError when the lengths differ. *)
Definition dot_1d_1d (a b : vec) : result float64 :=
  if length a =? length b then
    Ok (py_sum (map (fun i => fmul (getitem a i) (getitem b i))
                    (seq 0 (length a))))
  else Raise ValueError.

Definition np_dot : vec -> vec -> result float64 := dot_1d_1d.
Definition matmul_1d_1d : vec -> vec -> result float64 := dot_1d_1d.

(** [a /= b] on arrays of one shape: entrywise true division. *)
Fixpoint itruediv (a b : vec) : vec :=
  match a, b with
  | x :: a', y :: b' => fdiv x y :: itruediv a' b'
  | _, _ => []
  end.

(** ** The solver's interface *)

Inductive constraint_type : Type :=
| eq_type
| ineq_type.

(** One entry of [constraints]: the dictionary [{'type': ..., 'fun': ...}]. *)
Record constraint : Type := mk_constraint {
  type_ : constraint_type;
  cfun : vec -> float64
}.

(** The keyword arguments of [scipy.optimize.minimize] that the module
    supplies. *)
Record minimize_kwargs : Type := mk_kwargs {
  fun_ : vec -> result float64;
  bounds : list (float64 * float64);
  constraints : list constraint;
  x0 : vec
}.

(** [scipy.optimize.OptimizeResult]: the final iterate and the solver's
    report on it. *)
Record OptimizeResult : Type := mk_result {
  x : vec;
  success : bool;
  status : Z;
  message : string
}.

(** ** Programs over the two external calls *)

Inductive prog (A : Type) : Type :=
| Return (a : A)
| Throw (e : exn)
| RandomSample (size : nat) (k : vec -> prog A)
| Minimize (kw : minimize_kwargs) (k : OptimizeResult -> prog A).
Arguments Return {A} a.
Arguments Throw {A} e.
Arguments RandomSample {A} size k.
Arguments Minimize {A} kw k.

Fixpoint bind {A B} (p : prog A) (f : A -> prog B) : prog B :=
  match p with
  | Return a => f a
  | Throw e => Throw e
  | RandomSample n k => RandomSample n (fun d => bind (k d) f)
  | Minimize kw k => Minimize kw (fun r => bind (k r) f)
  end.

Declare Scope prog_scope.
Delimit Scope prog_scope with prog.
Notation "v <- c ;; k" := (bind c (fun v => k))
  (at level 100, c at next level, right associativity) : prog_scope.

Declare Scope result_scope.
Delimit Scope result_scope with result.
Notation "v <- c ;; k" := (rbind c (fun v => k))
  (at level 100, c at next level, right associativity) : result_scope.

(** [np.random.random(size=n)]: [n] samples of the half-open interval
    [0, 1); a negative size is refused. *)
Definition np_random_random (size : Z) : prog vec :=
  if (size <? 0)%Z
  then Throw ValueError
  else RandomSample (Z.to_nat size) Return.

Definition scipy_optimize_minimize (kw : minimize_kwargs) : prog OptimizeResult :=
  Minimize kw Return.

(** [range(n)]: empty for a negative [n]. *)
Definition range (n : Z) : list Z := map Z.of_nat (seq 0 (Z.to_nat n)).

(** What a generator may return for [size = n]. *)
Definition in_unit_interval (v : float64) : bool :=
  match v with
  | Fin q =>
      match (q ?= 0)%Qc, (q ?= 1)%Qc with
      | Lt, _ => false
      | _, Lt => true
      | _, _ => false
      end
  | _ => false
  end.

Definition random_draw (n : nat) (d : vec) : bool :=
  (length d =? n) && forallb in_unit_interval d.

(** ** efficientfrontier.py *)

(** An omitted keyword argument is [None]; the signature's default is
    [non_negative_weights: bool = True]. *)
Definition default_non_negative_weights : bool := true.

(** The lambda of the constraint, [lambda w: 1-sum(w)]. *)
Definition sum_to_one : vec -> float64 :=
  fun w => fsub (Fin 1%Qc) (py_sum w).

Definition _minimize_objective (objective : vec -> result float64)
    (n_securities : Z) (non_negative_weights : option bool) : prog vec :=
  let non_negative_weights :=
    match non_negative_weights with
    | Some b => b
    | None => default_non_negative_weights
    end in
  (x0 <- np_random_random n_securities ;;
   let x0 := itruediv x0 x0 in
   res <- scipy_optimize_minimize
            {| fun_ := objective;
               bounds := map (fun _ =>
                                (if non_negative_weights
                                 then Fin 0%Qc else Fin (- (1))%Qc,
                                 Fin 1%Qc))
                             (range n_securities);
               constraints := [ {| type_ := eq_type; cfun := sum_to_one |} ];
               x0 := x0 |} ;;
   Return (x res))%prog.

(** The lambda of [min_risk]; it closes over [covariance] only. *)
Definition min_risk_objective (covariance : ndarray2) : vec -> result float64 :=
  fun x =>
    (y <- matmul_1d_2d (T x) covariance ;;
     matmul_1d_1d y x)%result.

Definition min_risk (expected_returns : vec) (covariance : ndarray2) : prog vec :=
  let objective := min_risk_objective covariance in
  _minimize_objective objective (Z.of_nat (shape0 covariance)) None.

(** The lambda of [max_sharpe]: the unary minus binds tighter than the
    division, and the numerator is evaluated first. *)
Definition max_sharpe_objective (expected_returns : vec) (covariance : ndarray2)
    : vec -> result float64 :=
  fun x =>
    (d <- np_dot x expected_returns ;;
     y <- matmul_1d_2d (T x) covariance ;;
     v <- matmul_1d_1d y x ;;
     Ok (fdiv (fneg d) v))%result.

Definition max_sharpe (expected_returns : vec) (covariance : ndarray2) : prog vec :=
  let objective := max_sharpe_objective expected_returns covariance in
  _minimize_objective objective (Z.of_nat (shape0 covariance)) None.

(** ** Running a program *)

Section Run.
Variable rng_state : Type.
(** The generator: a draw of the requested size and the next state. *)
Variable random_sample : nat -> rng_state -> vec * rng_state.
(** The solver: a report, or an exception (its own, or one that the
    objective raised and the solver let through). *)
Variable minimize : minimize_kwargs -> result OptimizeResult.

Fixpoint run {A} (p : prog A) (st : rng_state) : result A * rng_state :=
  match p with
  | Return a => (Ok a, st)
  | Throw e => (Raise e, st)
  | RandomSample n k =>
      let (d, st') := random_sample n st in run (k d) st'
  | Minimize kw k =>
      match minimize kw with
      | Ok r => run (k r) st
      | Raise e => (Raise e, st)
      end
  end.
End Run.

(** [calls_minimize p kw]: some run of [p], over draws that a generator can
    return, reaches a call of the solver with the arguments [kw]. *)
Inductive calls_minimize {A} : prog A -> minimize_kwargs -> Prop :=
| calls_here kw k : calls_minimize (Minimize kw k) kw
| calls_after kw' k r kw :
    calls_minimize (k r) kw -> calls_minimize (Minimize kw' k) kw
| calls_sample n k d kw :
    random_draw n d = true ->
    calls_minimize (k d) kw -> calls_minimize (RandomSample n k) kw.

(** ** Test doubles for the two external calls *)

(** A generator whose state is the sample it returns next, repeated to the
    requested size. *)
Definition constant_rng (n : nat) (st : float64) : vec * float64 :=
  (repeat st n, st).

(** A solver that does no iteration: it evaluates the objective at the
    initial guess, lets an exception through, and reports the initial guess
    with the given [success]. *)
Definition zero_step_solver (ok : bool) (kw : minimize_kwargs)
    : result OptimizeResult :=
  (_ <- fun_ kw (x0 kw) ;;
   Ok {| x := x0 kw; success := ok;
         status := if ok then 0%Z else 9%Z;
         message := EmptyString |})%result.

(** ** The specification's quantities, over the rationals *)

Definition qsum (l : list Qc) : Qc := fold_right Qcplus 0%Qc l.

(** [isum n f] is the sum of [f i] for [i < n]. *)
Definition isum (n : nat) (f : nat -> Qc) : Qc := qsum (map f (seq 0 n)).

Definition entry (w : list Qc) (i : nat) : Qc := nth i w 0%Qc.
Definition entry2 (S : list (list Qc)) (i j : nat) : Qc := entry (nth i S []) j.


(** The portfolio variance [w^T S w], the double sum of
    [w_i * S_ij * w_j]. *)
Definition portfolio_variance (w : list Qc) (S : list (list Qc)) : Qc :=
  isum (length w) (fun i =>
    isum (length w) (fun j => entry w i * entry2 S i j * entry w j))%Qc.


(** The float64 arrays that hold a rational vector and an [n]-column
    rational matrix. *)
Definition of_reals (w : list Qc) : vec := map Fin w.
Definition of_real_matrix (n : nat) (S : list (list Qc)) : ndarray2 :=
  {| rows := map of_reals S; shape1 := n |}.

(** [S] has [n] rows of [n] entries. *)
Definition square (n : nat) (S : list (list Qc)) : bool :=
  (length S =? n) && forallb (fun r => length r =? n) S.

(** Negative weights are allowed only when the flag is passed as [False]. *)
Definition negative_weights_allowed (non_negative_weights : option bool) : bool :=
  match non_negative_weights with
  | Some false => true
  | _ => false
  end.

(** ** Sample data *)

Definition half : Qc := Q2Qc (1 # 2).
Definition two : Qc := Q2Qc 2.

(** Two uncorrelated securities of variance 1. *)
Definition identity2 : list (list Qc) := [[1; 0]; [0; 1]]%Qc.
(** One security of variance 0. *)
Definition zero1 : list (list Qc) := [[0]]%Qc.
(** A [2 x 3] array. *)
Definition wide : list (list Qc) := [[1; 0; 0]; [0; 1; 0]]%Qc.

(** The arguments of the call of lines 20-25 for a draw [d], restated apart
    from [_minimize_objective]; [calls_minimize_inv] below shows that they
    are what [_minimize_objective] hands to the solver. *)
Definition solver_arguments (objective : vec -> result float64) (n : Z)
    (flag : option bool) (d : vec) : minimize_kwargs :=
  {| fun_ := objective;
     bounds := map (fun _ =>
                      (if negative_weights_allowed flag
                       then Fin (- (1))%Qc else Fin 0%Qc,
                       Fin 1%Qc))
                   (range n);
     constraints := [ {| type_ := eq_type; cfun := sum_to_one |} ];
     x0 := itruediv d d |}.

(** The call for two securities under the default flag and the draw
    [0.5, 0.5]. *)
Definition kwargs2 (objective : vec -> result float64) : minimize_kwargs :=
  solver_arguments objective 2 None [Fin half; Fin half].

(** ** setup.py: Python strings and text files *)

(** A Python [str]: its code points. *)
Definition str : Type := list N.

(** The [str] of an ASCII literal. *)
Definition lit (s : string) : str := map N_of_ascii (list_ascii_of_string s).

(** The code points that [str.strip()] without argument removes: those
    for which [str.isspace] holds. *)
Definition isspace (c : N) : bool :=
  existsb (N.eqb c)
    [9; 10; 11; 12; 13; 28; 29; 30; 31; 32; 133; 160; 5760;
     8192; 8193; 8194; 8195; 8196; 8197; 8198; 8199; 8200; 8201; 8202;
     8232; 8233; 8239; 8287; 12288]%N.

Fixpoint dropwhile (p : N -> bool) (s : str) : str :=
  match s with
  | [] => []
  | c :: s' => if p c then dropwhile p s' else s
  end.

(** [s.strip(chars)], for the predicate [p] of membership in [chars]:
    the leading and the trailing characters in [chars] are removed. *)
Definition strip_of (p : N -> bool) (s : str) : str :=
  rev (dropwhile p (rev (dropwhile p s))).

(** [s.strip()]. *)
Definition str_strip (s : str) : str := strip_of isspace s.

(** [s.strip(chars)]. *)
Definition str_strip_chars (chars : str) (s : str) : str :=
  strip_of (fun c => existsb (N.eqb c) chars) s.

(** [s.startswith(prefix)]. *)
Fixpoint startswith (prefix s : str) : bool :=
  match prefix, s with
  | [], _ => true
  | _ :: _, [] => false
  | a :: prefix', b :: s' => N.eqb a b && startswith prefix' s'
  end.

(** [sub in s]. *)
Fixpoint str_contains (sub s : str) : bool :=
  startswith sub s ||
  match s with
  | [] => false
  | _ :: s' => str_contains sub s'
  end.

(** [s.split(sep)] for a separator of one character: never empty. *)
Fixpoint str_split (sep : N) (s : str) : list str :=
  match s with
  | [] => [[]]
  | c :: s' =>
      if N.eqb c sep then [] :: str_split sep s'
      else match str_split sep s' with
           | part :: parts => (c :: part) :: parts
           | [] => [[c]]
           end
  end.

(** A text file open for reading: the lines not read yet. *)
Definition text_file : Type := list str.

(** [f.readlines()]: the lines that are left, and the file at its end. *)
Definition readlines (f : text_file) : list str * text_file := (f, []).

(** A [str] is true when it is not empty. *)
Definition truthy (s : str) : bool :=
  match s with [] => false | _ :: _ => true end.

(** ** setup.py *)

(** Lines 11-18: the two comprehensions over [requirements.txt], both
    reading from the one open file. *)
Definition read_requirements (f : text_file) : list str * list str :=
  let (lines, f) := readlines f in
  let requirements :=
    map str_strip
        (filter (fun r => truthy (str_strip r) &&
                          negb (startswith (lit "git+") r)) lines) in
  let (lines, f) := readlines f in
  let git_requirements :=
    map str_strip
        (filter (fun r => truthy (str_strip r) &&
                          startswith (lit "git+") r) lines) in
  (requirements, git_requirements).

(** Lines 21-26: one [pip install] per git requirement, as the argument
    lists handed to [subprocess.run]. *)
Definition pip_installs (sys_executable : str) (git_requirements : list str)
    : list (list str) :=
  match git_requirements with
  | [] => []
  | _ :: _ =>
      map (fun requirement =>
             [sys_executable; lit "-m"; lit "pip"; lit "install"; requirement])
          git_requirements
  end.

(** [next(filter(pred, lines))]: the first line that satisfies [pred];
    StopIteration when there is none. *)
Definition next_filter (pred : str -> bool) (lines : list str) : result str :=
  match filter pred lines with
  | l :: _ => Ok l
  | [] => Raise (OtherException "StopIteration")
  end.

(** The characters that line 30 strips: space, double quote, quote and
    newline. *)
Definition version_strip_chars : str := [32; 34; 39; 10]%N.

(** Lines 28-30: the version read from [__init__.py]. *)
Definition read_version (f : text_file) : result str :=
  let (lines, f) := readlines f in
  (version_line <- next_filter (fun l => str_contains (lit "version") l) lines ;;
   Ok (str_strip_chars version_strip_chars
         (last (str_split 61%N version_line) [])))%result.

(** The arguments of [setuptools.setup] that the script computes. *)
Record setup_kwargs : Type := mk_setup_kwargs {
  version : str;
  long_description : str;
  install_requires : list str
}.

(** The script: the [pip] runs it asks for, then the call of
    [setuptools.setup].  The three files are given by their content. *)
Definition setup_py (sys_executable : str) (readme : str)
    (requirements_txt init_py : text_file)
    : result (list (list str) * setup_kwargs) :=
  let long_description := readme in
  let (requirements, git_requirements) := read_requirements requirements_txt in
  let runs := pip_installs sys_executable git_requirements in
  (version <- read_version init_py ;;
   Ok (runs,
       {| version := version;
          long_description := long_description;
          install_requires := requirements |}))%result.

(** Sample files. *)
Definition newline : str := [10%N].

Definition requirements_sample : text_file :=
  [lit "numpy" ++ newline;
   lit "git+https://example.org/pkg.git" ++ newline;
   lit "  git+https://example.org/other.git" ++ newline].

Definition init_sample : text_file :=
  [lit "# conversion helpers" ++ newline;
   lit "__version__ = '0.1.2'" ++ newline].

(** ** Further quantities and sample data *)

Definition quarter : Qc := Q2Qc (1 # 4).

(** An objective that raises at every point. *)
Definition raising_objective : vec -> result float64 :=
  fun _ => Raise (OtherException "FloatingPointError").

(** ** The lambdas over an arithmetic *)

(** The scalar operations that the lambdas of lines 23, 38 and 52 use.
    The definitions above instantiate them with exact arithmetic on the
    finite values; NumPy runs them in binary64. *)
Record arithmetic (F : Type) : Type := mk_arithmetic {
  num_zero : F;
  num_one : F;
  num_add : F -> F -> F;
  num_sub : F -> F -> F;
  num_mul : F -> F -> F;
  num_div : F -> F -> F;
  num_neg : F -> F
}.

(** A two-dimensional array over [F]. *)
Record array2 (F : Type) : Type := mk_array2 {
  a_rows : list (list F);
  a_shape1 : nat
}.

Section Lambdas.
Variable F : Type.
Variable A : arithmetic F.

Definition a_shape0 (m : array2 F) : nat := length (a_rows m).

Definition a_getitem (a : list F) (i : nat) : F := nth i a (num_zero A).

Definition a_getitem2 (m : array2 F) (i j : nat) : F :=
  a_getitem (nth i (a_rows m) []) j.

(** [sum(w)]: a left fold from 0. *)
Definition a_sum (w : list F) : F := fold_left (num_add A) w (num_zero A).

(** [np.matmul] of a 1-D and a 2-D array. *)
Definition a_matmul_1d_2d (a : list F) (b : array2 F) : result (list F) :=
  if length a =? a_shape0 b then
    Ok (map (fun j =>
               a_sum (map (fun i => num_mul A (a_getitem a i)
                                              (a_getitem2 b i j))
                          (seq 0 (length a))))
            (seq 0 (a_shape1 b)))
  else Raise ValueError.

(** [np.matmul] and [np.dot] of two 1-D arrays. *)
Definition a_dot_1d_1d (a b : list F) : result F :=
  if length a =? length b then
    Ok (a_sum (map (fun i => num_mul A (a_getitem a i) (a_getitem b i))
                   (seq 0 (length a))))
  else Raise ValueError.


(** Line 38: [lambda x: np.matmul(np.matmul(x.T, covariance), x)]. *)
Definition min_risk_lambda (covariance : array2 F) : list F -> result F :=
  fun x =>
    (y <- a_matmul_1d_2d x covariance ;;
     a_dot_1d_1d y x)%result.

(** Line 52: [lambda x: -np.dot(x, expected_returns) /
    np.matmul(np.matmul(x.T, covariance), x)]. *)
Definition max_sharpe_lambda (expected_returns : list F)
    (covariance : array2 F) : list F -> result F :=
  fun x =>
    (d <- a_dot_1d_1d x expected_returns ;;
     y <- a_matmul_1d_2d x covariance ;;
     v <- a_dot_1d_1d y x ;;
     Ok (num_div A (num_neg A d) v))%result.
End Lambdas.


(** IEEE 754 binary64 with rounding to nearest even: the arithmetic of
    NumPy's float64, every operation rounded once. *)
Definition binary64 : arithmetic float :=
  {| num_zero := PrimFloat.zero; num_one := PrimFloat.one;
     num_add := PrimFloat.add; num_sub := PrimFloat.sub;
     num_mul := PrimFloat.mul; num_div := PrimFloat.div;
     num_neg := PrimFloat.opp |}.


(** ** The real number that a binary64 value stands for *)

(** The value of a finite binary64 number; none for the infinities and
    NaN. *)
Definition value (x : float) : option Qc :=
  match Prim2SF x with
  | S754_zero _ => Some 0%Qc
  | S754_finite s m e =>
      Some (Q2Qc (inject_Z (if s then Z.neg m else Z.pos m) * Qpower 2 e))
  | S754_infinity _ | S754_nan => None
  end.




(** [x] is one of the two zeros. *)
Definition is_zero64 (x : float) : bool :=
  match Prim2SF x with S754_zero _ => true | _ => false end.












Definition zero1_64 : array2 float :=
  {| a_rows := [[0]]%float; a_shape1 := 1 |}.

(** * Finite sums of rationals *)

Section Sums.
Local Open Scope Qc_scope.








Lemma fold_left_fadd_of_reals (l : list Qc) (a : Qc) :
  fold_left fadd (of_reals l) (Fin a) = Fin (a + qsum l).
Proof.
  revert a. induction l as [|b l IH]; intros a; simpl.
  - f_equal. ring.
  - rewrite IH. f_equal. ring.
Qed.

Lemma py_sum_of_reals (l : list Qc) : py_sum (of_reals l) = Fin (qsum l).
Proof.
  unfold py_sum. rewrite fold_left_fadd_of_reals. f_equal. ring.
Qed.
End Sums.

(** * Shapes *)

Lemma matmul_1d_2d_shape_error (a : vec) (b : ndarray2) :
  length a <> shape0 b -> matmul_1d_2d a b = Raise ValueError.
Proof.
  intros H. unfold matmul_1d_2d.
  now apply Nat.eqb_neq in H as ->.
Qed.

Lemma matmul_1d_2d_length (a y : vec) (b : ndarray2) :
  matmul_1d_2d a b = Ok y -> length y = shape1 b.
Proof.
  unfold matmul_1d_2d. destruct (length a =? shape0 b); [|discriminate].
  intros [= <-]. now rewrite length_map, length_seq.
Qed.

Lemma dot_1d_1d_shape_error (a b : vec) :
  length a <> length b -> dot_1d_1d a b = Raise ValueError.
Proof.
  intros H. unfold dot_1d_1d.
  now apply Nat.eqb_neq in H as ->.
Qed.

(** * The call of the solver *)

Ltac qc_canon :=
  repeat (first [ reflexivity
                | apply Qc_is_canon; reflexivity
                | apply (f_equal2 (@cons float64))
                | apply (f_equal Fin)
                | apply (f_equal (@Ok vec))
                | apply (f_equal (@Ok float64)) ]).

(** A call of [_minimize_objective] reaches the solver only with a
    non-negative count, and then with exactly the arguments of lines 20-25,
    the initial guess being a draw divided by itself. *)
Lemma calls_minimize_inv (objective : vec -> result float64) (n : Z)
    (flag : option bool) (kw : minimize_kwargs) :
  calls_minimize (_minimize_objective objective n flag) kw ->
  (0 <= n)%Z /\
  exists d, random_draw (Z.to_nat n) d = true /\
    kw = solver_arguments objective n flag d.
Proof.
  unfold _minimize_objective, np_random_random.
  destruct (Z.ltb_spec n 0) as [Hneg|Hpos]; cbn [bind]; intros H.
  - inversion H.
  - split; [exact Hpos|].
    inversion H as [| |n' k d kw' Hd Hk]; subst.
    exists d. split; [exact Hd|].
    cbn [bind scipy_optimize_minimize] in Hk.
    inversion Hk as [kw1 k1| kw1 k1 r kw2 Hr|]; subst.
    + destruct flag as [[|]|]; reflexivity.
    + cbn [bind] in Hr. inversion Hr.
Qed.

(** Conversely every draw of the requested size leads to such a call. *)
Lemma calls_minimize_intro (objective : vec -> result float64) (n : nat)
    (flag : option bool) (d : vec) :
  random_draw n d = true ->
  calls_minimize (_minimize_objective objective (Z.of_nat n) flag)
    (solver_arguments objective (Z.of_nat n) flag d).
Proof.
  intros Hd. unfold _minimize_objective, np_random_random.
  destruct (Z.ltb_spec (Z.of_nat n) 0) as [Hneg|_]; [lia|].
  cbn [bind]. rewrite Nat2Z.id.
  apply calls_sample with (d := d); [exact Hd|].
  cbn [bind scipy_optimize_minimize].
  destruct flag as [[|]|]; apply calls_here.
Qed.



Lemma calls_minimize_kwargs2 (objective : vec -> result float64) :
  calls_minimize (_minimize_objective objective 2 None) (kwargs2 objective).
Proof.
  exact (calls_minimize_intro objective 2 None [Fin half; Fin half] eq_refl).
Qed.

(** * The lambdas at the two arithmetics *)




(** * binary64 operations that do not round *)














Lemma max_sharpe_lambda_eq {F} (A : arithmetic F) (expected_returns : list F)
    (covariance : array2 F) (w : list F) :
  max_sharpe_lambda A expected_returns covariance w =
  (d <- a_dot_1d_1d A w expected_returns ;;
   v <- min_risk_lambda A covariance w ;;
   Ok (num_div A (num_neg A d) v))%result.
Proof.
  unfold max_sharpe_lambda, min_risk_lambda.
  destruct (a_dot_1d_1d A w expected_returns) as [d|e]; [|reflexivity].
  cbn [rbind]. now destruct (a_matmul_1d_2d A w covariance).
Qed.





(** Division by a zero: an infinity or NaN, never a finite number. *)
Lemma div_by_zero64 (x v : float) :
  is_zero64 v = true -> value (x / v)%float = None.
Proof.
  unfold is_zero64, value. rewrite div_spec.
  destruct (Prim2SF v); try discriminate. intros _.
  unfold SF64div, SFdiv. now destruct (Prim2SF x).
Qed.

(** * Minimum risk *)




(** C9.  Two calls of [min_risk] on one covariance matrix and two
    expected-returns arrays hand [_minimize_objective] the same objective
    and the same security count: they are the same program, and return the
    same result and generator state under every generator and solver. *)
Theorem min_risk_ignores_expected_returns
    (r1 r2 : vec) (covariance : ndarray2) :
  (min_risk r1 covariance =
     _minimize_objective (min_risk_objective covariance)
                         (Z.of_nat (shape0 covariance)) None
   /\ min_risk r2 covariance =
     _minimize_objective (min_risk_objective covariance)
                         (Z.of_nat (shape0 covariance)) None)
  /\ (forall kw, calls_minimize (min_risk r1 covariance) kw <->
                 calls_minimize (min_risk r2 covariance) kw)
  /\ forall (rng_state : Type)
            (random_sample : nat -> rng_state -> vec * rng_state)
            (minimize : minimize_kwargs -> result OptimizeResult)
            (st : rng_state),
       run random_sample minimize (min_risk r1 covariance) st =
       run random_sample minimize (min_risk r2 covariance) st.
Proof.
  repeat split; auto.
Qed.

(** * The generic minimizer's constraint and bounds *)

Lemma Fin_inj (p q : Qc) : Fin p = Fin q -> p = q.
Proof. congruence. Qed.

Lemma sum_to_one_zero (w : vec) :
  sum_to_one w = Fin 0%Qc <-> py_sum w = Fin 1%Qc.
Proof.
  unfold sum_to_one, fsub.
  destruct (py_sum w) as [q| | |]; cbn [fadd fneg]; try (split; discriminate).
  split; intros H; apply Fin_inj in H; apply f_equal.
  - transitivity (1 - (1 + - q))%Qc; [ring | rewrite H; ring].
  - rewrite H. ring.
Qed.








(** * Maximum Sharpe *)

(** The denominator of the Sharpe objective is the objective of
    [min_risk]. *)
Lemma max_sharpe_objective_eq (expected_returns : vec) (covariance : ndarray2)
    (w : vec) :
  max_sharpe_objective expected_returns covariance w =
  (d <- np_dot w expected_returns ;;
   v <- min_risk_objective covariance w ;;
   Ok (fdiv (fneg d) v))%result.
Proof.
  unfold max_sharpe_objective, min_risk_objective.
  destruct (np_dot w expected_returns) as [d|e]; [|reflexivity].
  cbn [rbind].
  now destruct (matmul_1d_2d (T w) covariance).
Qed.




(** C7 as the code has it.  Where the variance that the lambda of line 52
    computes is a zero, the lambda divides by it without a guard and
    without raising: its result is the binary64 quotient of [-(w . r)] by
    that zero, which is an infinity or NaN and never a finite number. *)
Theorem max_sharpe_objective_zero_variance
    (expected_returns : list float) (covariance : array2 float)
    (w : list float) (v : float) :
  length w = length expected_returns ->
  min_risk_lambda binary64 covariance w = Ok v ->
  is_zero64 v = true ->
  exists d,
    a_dot_1d_1d binary64 w expected_returns = Ok d
    /\ max_sharpe_lambda binary64 expected_returns covariance w =
       Ok (- d / v)%float
    /\ value (- d / v)%float = None.
Proof.
  intros Hr Hv Hzero. rewrite max_sharpe_lambda_eq, Hv.
  unfold a_dot_1d_1d. rewrite Hr, Nat.eqb_refl. cbn [rbind].
  eexists. split; [reflexivity|]. split; [reflexivity|].
  now apply div_by_zero64.
Qed.

Lemma max_sharpe_objective_zero_variance_witness :
  min_risk_lambda binary64 zero1_64 [1]%float = Ok 0%float
  /\ exists d,
       a_dot_1d_1d binary64 [1]%float [1]%float = Ok d
       /\ max_sharpe_lambda binary64 [1]%float zero1_64 [1]%float =
          Ok (- d / 0)%float
       /\ value (- d / 0)%float = None.
Proof.
  split; [reflexivity|].
  apply (@max_sharpe_objective_zero_variance [1]%float zero1_64 [1]%float
           0%float eq_refl eq_refl eq_refl).
Defined.

(** C7 as stated fails: no single value stands for the division by zero,
    and no error is raised.  One security of variance zero and expected
    return 1, 0 or -1 gives the objective values -inf, NaN and +inf. *)
Lemma zero_variance_division_unguarded :
  portfolio_variance [1%Qc] zero1 = 0%Qc
  /\ max_sharpe_objective (of_reals [1%Qc]) (of_real_matrix 1 zero1)
                          (of_reals [1%Qc]) = Ok NInf
  /\ max_sharpe_objective (of_reals [0%Qc]) (of_real_matrix 1 zero1)
                          (of_reals [1%Qc]) = Ok NaN
  /\ max_sharpe_objective (of_reals [(- (1))%Qc]) (of_real_matrix 1 zero1)
                          (of_reals [1%Qc]) = Ok PInf
  /\ ~ (exists sentinel : float64,
          forall (r w : list Qc) (S : list (list Qc)),
            length r = length w ->
            square (length w) S = true ->
            portfolio_variance w S = 0%Qc ->
            let v := max_sharpe_objective (of_reals r)
                       (of_real_matrix (length w) S) (of_reals w) in
            is_raise v = true \/ v = Ok sentinel).
Proof.
  assert (Hvar : portfolio_variance [1%Qc] zero1 = 0%Qc)
    by (apply Qc_is_canon; reflexivity).
  split; [exact Hvar|].
  split; [reflexivity|]. split; [reflexivity|]. split; [reflexivity|].
  intros [sentinel H].
  pose proof (H [1%Qc] [1%Qc] zero1 eq_refl eq_refl Hvar) as H1.
  pose proof (H [0%Qc] [1%Qc] zero1 eq_refl eq_refl Hvar) as H0.
  cbv zeta in H1, H0.
  change (max_sharpe_objective (of_reals [1%Qc])
            (of_real_matrix (length [1%Qc]) zero1) (of_reals [1%Qc]))
    with (@Ok float64 NInf) in H1.
  change (max_sharpe_objective (of_reals [0%Qc])
            (of_real_matrix (length [1%Qc]) zero1) (of_reals [1%Qc]))
    with (@Ok float64 NaN) in H0.
  destruct H1 as [H1|H1]; [discriminate|].
  destruct H0 as [H0|H0]; [discriminate|].
  congruence.
Qed.

(** * The initial guess *)

Lemma fdiv_self (q : Qc) :
  fdiv (Fin q) (Fin q) = if Qc_eq_bool q 0 then NaN else Fin 1%Qc.
Proof.
  cbn [fdiv]. unfold Qc_eq_bool.
  destruct (Qc_eq_dec q 0) as [->|Hq].
  - reflexivity.
  - apply f_equal. unfold Qcdiv. now apply Qcmult_inv_r.
Qed.

Lemma in_unit_interval_finite (v : float64) :
  in_unit_interval v = true -> exists q, v = Fin q.
Proof.
  destruct v as [q| | |]; try discriminate. intros _. now exists q.
Qed.

(** Entry by entry, a draw divided by itself is 1, except that [0 / 0] is
    NaN. *)
Lemma itruediv_self (d : vec) :
  forallb in_unit_interval d = true ->
  itruediv d d =
    map (fun v => if float64_eqb v (Fin 0%Qc) then NaN else Fin 1%Qc) d.
Proof.
  induction d as [|v d IH]; [reflexivity|].
  cbn [forallb itruediv map]. intros H.
  apply andb_prop in H as [Hv Hd].
  apply in_unit_interval_finite in Hv as [q ->].
  rewrite fdiv_self, IH by exact Hd. reflexivity.
Qed.

Lemma float64_eqb_neq (v : float64) :
  v <> Fin 0%Qc -> float64_eqb v (Fin 0%Qc) = false.
Proof.
  destruct v as [q| | |]; try reflexivity.
  intros H. cbn [float64_eqb]. unfold Qc_eq_bool.
  destruct (Qc_eq_dec q 0) as [->|_]; [now elim H | reflexivity].
Qed.

(** C8 as the code has it.  A draw of length [n] from [0, 1) divided by
    itself has 1 at every non-zero entry and NaN at every zero entry; it is
    the all-ones vector of length [n] when no entry of the draw is zero. *)
Theorem self_division_of_draw (n : nat) (d : vec) :
  random_draw n d = true ->
  itruediv d d =
    map (fun v => if float64_eqb v (Fin 0%Qc) then NaN else Fin 1%Qc) d
  /\ length (itruediv d d) = n
  /\ ((forall v, In v d -> v <> Fin 0%Qc) ->
      itruediv d d = repeat (Fin 1%Qc) n).
Proof.
  unfold random_draw. intros H. apply andb_prop in H as [Hn Hd].
  apply Nat.eqb_eq in Hn. rewrite (itruediv_self d Hd).
  split; [reflexivity|]. split; [now rewrite length_map|].
  intros Hnz. subst n. clear Hd.
  induction d as [|v d IH]; [reflexivity|].
  cbn [map length repeat].
  rewrite float64_eqb_neq by (apply Hnz; now left).
  rewrite IH; [reflexivity|].
  intros u Hu. apply Hnz. now right.
Qed.

Lemma self_division_of_draw_witness :
  random_draw 2 [Fin half; Fin half] = true /\
  itruediv [Fin half; Fin half] [Fin half; Fin half] = repeat (Fin 1%Qc) 2.
Proof.
  split; [reflexivity|].
  apply (proj2 (proj2 (self_division_of_draw 2 [Fin half; Fin half] eq_refl))).
  intros v [<-|[<-|[]]]; intros E; apply Fin_inj in E;
    apply (f_equal this) in E; discriminate.
Defined.

(** C8 as stated fails: 0 lies in [0, 1), and a draw of it gives NaN, not
    1. *)
Lemma self_division_of_zero_draw :
  random_draw 1 [Fin 0%Qc] = true
  /\ itruediv [Fin 0%Qc] [Fin 0%Qc] = [NaN]
  /\ itruediv [Fin 0%Qc] [Fin 0%Qc] <> repeat (Fin 1%Qc) 1.
Proof.
  split; [reflexivity|]. split; [reflexivity|].
  change (itruediv [Fin 0%Qc] [Fin 0%Qc]) with [NaN].
  discriminate.
Qed.

(** * Running the minimizer *)

(** One run of [_minimize_objective]: a refused negative size, or one draw,
    one call of the solver, and the [x] of its report. *)
Lemma run_minimize_objective (rng_state : Type)
    (random_sample : nat -> rng_state -> vec * rng_state)
    (minimize : minimize_kwargs -> result OptimizeResult)
    (objective : vec -> result float64) (n : Z) (flag : option bool)
    (st : rng_state) :
  run random_sample minimize (_minimize_objective objective n flag) st =
  if (n <? 0)%Z then (Raise ValueError, st)
  else
    let (d, st') := random_sample (Z.to_nat n) st in
    (rmap x (minimize (solver_arguments objective n flag d)), st').
Proof.
  unfold _minimize_objective, np_random_random, solver_arguments.
  destruct (n <? 0)%Z; [reflexivity|].
  cbn [bind run scipy_optimize_minimize].
  destruct (random_sample (Z.to_nat n) st) as [d st'].
  replace (match flag with Some b => b | None => default_non_negative_weights end)
    with (negb (negative_weights_allowed flag))
    by now destruct flag as [[|]|].
  destruct (negative_weights_allowed flag); cbn [negb];
    match goal with |- context [minimize ?kw] => destruct (minimize kw) end;
    reflexivity.
Qed.

Lemma min_risk_objective_wrong_length (covariance : ndarray2) (w : vec) :
  length w <> shape0 covariance ->
  min_risk_objective covariance w = Raise ValueError.
Proof.
  intros H. unfold min_risk_objective, T.
  now rewrite matmul_1d_2d_shape_error.
Qed.

(** On an array that is not square the two products cannot both be
    formed, whatever the length of the weight vector. *)
Lemma min_risk_objective_not_square (covariance : ndarray2) (w : vec) :
  shape1 covariance <> shape0 covariance ->
  min_risk_objective covariance w = Raise ValueError.
Proof.
  intros Hns.
  destruct (Nat.eq_dec (length w) (shape0 covariance)) as [Hw|Hw];
    [|now apply min_risk_objective_wrong_length].
  unfold min_risk_objective, T.
  destruct (matmul_1d_2d w covariance) as [y|e] eqn:E.
  - cbn [rbind]. apply dot_1d_1d_shape_error.
    rewrite (matmul_1d_2d_length _ _ E). congruence.
  - rewrite matmul_1d_2d_shape_error in E by (intros F; revert E;
      unfold matmul_1d_2d; rewrite F, Nat.eqb_refl; discriminate).
    now rewrite <- E.
Qed.

Lemma max_sharpe_objective_mismatch (expected_returns : vec)
    (covariance : ndarray2) (w : vec) :
  shape1 covariance <> shape0 covariance \/
  length expected_returns <> shape0 covariance ->
  max_sharpe_objective expected_returns covariance w = Raise ValueError.
Proof.
  intros H. rewrite max_sharpe_objective_eq.
  unfold np_dot, dot_1d_1d.
  destruct (Nat.eqb_spec (length w) (length expected_returns)) as [Hw|Hw];
    [|reflexivity].
  cbn [rbind]. destruct H as [H|H].
  - now rewrite min_risk_objective_not_square.
  - rewrite min_risk_objective_wrong_length; [reflexivity | congruence].
Qed.

Lemma zero_step_solver_propagates (ok : bool) (kw : minimize_kwargs) (e : exn) :
  fun_ kw (x0 kw) = Raise e -> zero_step_solver ok kw = Raise e.
Proof. unfold zero_step_solver. now intros ->. Qed.

Lemma zero_step_solver_x (kw : minimize_kwargs) :
  rmap x (zero_step_solver false kw) = rmap x (zero_step_solver true kw).
Proof. unfold zero_step_solver. now destruct (fun_ kw (x0 kw)). Qed.

Section ShapeErrors.
Variable rng_state : Type.
Variable random_sample : nat -> rng_state -> vec * rng_state.
Variable minimize : minimize_kwargs -> result OptimizeResult.
(** The solver evaluates the objective at the initial guess and lets its
    exception through. *)
Hypothesis minimize_evaluates_x0 :
  forall kw e, fun_ kw (x0 kw) = Raise e -> minimize kw = Raise e.

Lemma run_raising_objective (objective : vec -> result float64) (n : nat)
    (st : rng_state) :
  (forall w, objective w = Raise ValueError) ->
  fst (run random_sample minimize
         (_minimize_objective objective (Z.of_nat n) None) st) =
  Raise ValueError.
Proof.
  intros Hobj. rewrite run_minimize_objective.
  destruct (Z.ltb_spec (Z.of_nat n) 0) as [Hneg|_]; [lia|].
  destruct (random_sample (Z.to_nat (Z.of_nat n)) st) as [d st'].
  cbn [fst]. rewrite minimize_evaluates_x0 with (e := ValueError);
    [reflexivity | apply Hobj].
Qed.

(** C5 as the code has it.  Neither function validates its input.  Under a
    solver that evaluates the objective at the initial guess, a covariance
    array that is not square makes [min_risk] and [max_sharpe] fail with the
    ValueError of the array product, and so does, for [max_sharpe], an
    expected-returns array whose length is not the number of rows. *)
Theorem shape_mismatch_raises (expected_returns : vec) (covariance : ndarray2)
    (st : rng_state) :
  (shape1 covariance <> shape0 covariance ->
   fst (run random_sample minimize (min_risk expected_returns covariance) st)
     = Raise ValueError
   /\ fst (run random_sample minimize
             (max_sharpe expected_returns covariance) st)
     = Raise ValueError)
  /\ (length expected_returns <> shape0 covariance ->
      fst (run random_sample minimize
             (max_sharpe expected_returns covariance) st)
        = Raise ValueError).
Proof.
  split; [intros H; split | intros H]; apply run_raising_objective; intros w.
  - now apply min_risk_objective_not_square.
  - apply max_sharpe_objective_mismatch. now left.
  - apply max_sharpe_objective_mismatch. now right.
Qed.
End ShapeErrors.

Lemma shape_mismatch_raises_witness :
  shape1 (of_real_matrix 3 wide) <> shape0 (of_real_matrix 3 wide)
  /\ fst (run constant_rng (zero_step_solver true)
            (min_risk (of_reals [1%Qc; two]) (of_real_matrix 3 wide))
            (Fin half)) = Raise ValueError
  /\ fst (run constant_rng (zero_step_solver true)
            (max_sharpe (of_reals [1%Qc; two]) (of_real_matrix 3 wide))
            (Fin half)) = Raise ValueError.
Proof.
  assert (H : shape1 (of_real_matrix 3 wide) <> shape0 (of_real_matrix 3 wide))
    by discriminate.
  split; [exact H|].
  apply (proj1 (@shape_mismatch_raises float64 constant_rng
                  (zero_step_solver true)
                  (zero_step_solver_propagates true)
                  (of_reals [1%Qc; two]) (of_real_matrix 3 wide) (Fin half))).
  exact H.
Defined.

(** C5 as stated fails for [min_risk]: with a [2 x 2] covariance array and
    a single expected return it returns a weight vector, under a solver
    that does evaluate the objective at the initial guess. *)
Lemma min_risk_accepts_mismatched_returns :
  rectangular (of_real_matrix 2 identity2) = true
  /\ shape1 (of_real_matrix 2 identity2) = shape0 (of_real_matrix 2 identity2)
  /\ shape0 (of_real_matrix 2 identity2) <> length (of_reals [1%Qc])
  /\ (forall kw e, fun_ kw (x0 kw) = Raise e ->
                   zero_step_solver true kw = Raise e)
  /\ fst (run constant_rng (zero_step_solver true)
            (min_risk (of_reals [1%Qc]) (of_real_matrix 2 identity2))
            (Fin half)) = Ok [Fin 1%Qc; Fin 1%Qc].
Proof.
  split; [reflexivity|]. split; [reflexivity|].
  split; [discriminate|].
  split; [exact (zero_step_solver_propagates true)|].
  vm_compute. qc_canon.
Qed.

(** [_minimize_objective] returns the [x] of the solver's report and reads
    nothing else of it: when the solver returns a report, that report's [x]
    is the result whatever its [success]; and two solvers whose reports
    agree on [x] give the same result and the same generator state. *)
Theorem minimizer_returns_final_iterate (rng_state : Type)
    (random_sample : nat -> rng_state -> vec * rng_state)
    (minimize minimize' : minimize_kwargs -> result OptimizeResult)
    (objective : vec -> result float64) (n_securities : Z)
    (non_negative_weights : option bool) (st : rng_state) :
  (forall kw, rmap x (minimize kw) = rmap x (minimize' kw)) ->
  run random_sample minimize
      (_minimize_objective objective n_securities non_negative_weights) st =
  run random_sample minimize'
      (_minimize_objective objective n_securities non_negative_weights) st
  /\ forall d st' res,
       (0 <= n_securities)%Z ->
       random_sample (Z.to_nat n_securities) st = (d, st') ->
       minimize (solver_arguments objective n_securities
                                  non_negative_weights d) = Ok res ->
       run random_sample minimize
           (_minimize_objective objective n_securities
                                non_negative_weights) st = (Ok (x res), st').
Proof.
  intros Hx. rewrite !run_minimize_objective. split.
  - destruct (n_securities <? 0)%Z; [reflexivity|].
    destruct (random_sample (Z.to_nat n_securities) st) as [d st'].
    now rewrite Hx.
  - intros d st' res Hn Hd Hres.
    destruct (Z.ltb_spec n_securities 0) as [Hneg|_]; [lia|].
    now rewrite Hd, Hres.
Qed.

Lemma minimizer_returns_final_iterate_witness :
  run constant_rng (zero_step_solver false)
      (_minimize_objective (min_risk_objective (of_real_matrix 2 identity2))
                           2 None) (Fin half) =
  run constant_rng (zero_step_solver true)
      (_minimize_objective (min_risk_objective (of_real_matrix 2 identity2))
                           2 None) (Fin half).
Proof.
  apply (@minimizer_returns_final_iterate float64 constant_rng
           (zero_step_solver false) (zero_step_solver true)
           (min_risk_objective (of_real_matrix 2 identity2)) 2 None (Fin half)
           zero_step_solver_x).
Defined.


(** * Further properties of the objectives *)

Lemma min_risk_objective_ok (covariance : ndarray2) (w : vec) :
  length w = shape0 covariance ->
  shape1 covariance = shape0 covariance ->
  exists v, min_risk_objective covariance w = Ok v.
Proof.
  intros Hw Hsq. unfold min_risk_objective, T, matmul_1d_2d.
  rewrite Hw, Nat.eqb_refl. cbn [rbind].
  unfold matmul_1d_1d, dot_1d_1d.
  rewrite length_map, length_seq, Hsq, Hw, Nat.eqb_refl.
  eexists. reflexivity.
Qed.

(** X1.  The objective of [min_risk] returns a value exactly on the weight
    vectors whose length is the number of rows of a square covariance
    array; on every other input it raises ValueError. *)
Theorem min_risk_objective_defined (covariance : ndarray2) (w : vec) :
  (length w = shape0 covariance /\ shape1 covariance = shape0 covariance ->
   exists v, min_risk_objective covariance w = Ok v)
  /\ (~ (length w = shape0 covariance /\
         shape1 covariance = shape0 covariance) ->
      min_risk_objective covariance w = Raise ValueError).
Proof.
  split.
  - intros [Hw Hsq]. now apply min_risk_objective_ok.
  - intros H.
    destruct (Nat.eq_dec (length w) (shape0 covariance)) as [Hw|Hw];
      [|now apply min_risk_objective_wrong_length].
    apply min_risk_objective_not_square. intros Hsq. apply H. now split.
Qed.

(** X2.  The objective of [max_sharpe] returns a value exactly when the
    weight vector, the expected returns and the rows of a square covariance
    array have one length; on every other input it raises ValueError. *)
Theorem max_sharpe_objective_defined (expected_returns : vec)
    (covariance : ndarray2) (w : vec) :
  (length w = length expected_returns /\
   length w = shape0 covariance /\
   shape1 covariance = shape0 covariance ->
   exists v, max_sharpe_objective expected_returns covariance w = Ok v)
  /\ (~ (length w = length expected_returns /\
         length w = shape0 covariance /\
         shape1 covariance = shape0 covariance) ->
      max_sharpe_objective expected_returns covariance w = Raise ValueError).
Proof.
  rewrite max_sharpe_objective_eq. unfold np_dot, dot_1d_1d.
  destruct (Nat.eqb_spec (length w) (length expected_returns)) as [Hr|Hr];
    cbn [rbind].
  - destruct (Nat.eq_dec (length w) (shape0 covariance)) as [Hw|Hw].
    + destruct (Nat.eq_dec (shape1 covariance) (shape0 covariance)) as [Hs|Hs].
      * split; [|intros H; elim H; now repeat split].
        intros _.
        destruct (min_risk_objective_ok covariance w Hw Hs) as [v ->].
        eexists. reflexivity.
      * split; [intros (_ & _ & H); contradiction|].
        intros _. now rewrite min_risk_objective_not_square.
    + split; [intros (_ & H & _); contradiction|].
      intros _. now rewrite min_risk_objective_wrong_length.
  - split; [intros (H & _); contradiction | reflexivity].
Qed.

(** * Further properties of the solver call *)

Lemma length_itruediv_self (d : vec) : length (itruediv d d) = length d.
Proof. induction d as [|v d IH]; [reflexivity|]. cbn [itruediv length]. now rewrite IH. Qed.

Lemma itruediv_nonzero (d : vec) :
  forallb in_unit_interval d = true ->
  (forall v, In v d -> v <> Fin 0%Qc) ->
  itruediv d d = repeat (Fin 1%Qc) (length d).
Proof.
  intros Hd Hnz. rewrite (itruediv_self d Hd). clear Hd.
  induction d as [|v d IH]; [reflexivity|].
  cbn [map length repeat].
  rewrite float64_eqb_neq by (apply Hnz; now left).
  rewrite IH; [reflexivity|].
  intros u Hu. apply Hnz. now right.
Qed.

Lemma random_draw_inv (n : nat) (d : vec) :
  random_draw n d = true ->
  length d = n /\ forallb in_unit_interval d = true.
Proof.
  unfold random_draw. intros H. apply andb_prop in H as [Hn Hd].
  now apply Nat.eqb_eq in Hn.
Qed.

(** The entries of a self-division that are finite are all 1. *)
Lemma finite_self_division (d : vec) :
  forallb in_unit_interval d = true ->
  forallb is_finite (itruediv d d) = true ->
  itruediv d d = of_reals (repeat 1%Qc (length d)).
Proof.
  intros Hd. rewrite (itruediv_self d Hd). clear Hd.
  induction d as [|v d IH]; [reflexivity|].
  cbn [map forallb length repeat of_reals]. intros H.
  apply andb_prop in H as [Hv Hrest].
  destruct (float64_eqb v (Fin 0%Qc)); [discriminate|].
  now rewrite (IH Hrest).
Qed.

Section CountOfOnes.
Local Open Scope Qc_scope.

Lemma Qc_zero_le_one : 0 <= 1.
Proof. unfold Qcle. cbn. discriminate. Qed.

Lemma qsum_repeat_one_nonneg (k : nat) : 0 <= qsum (repeat 1 k).
Proof.
  induction k as [|k IH]; cbn [repeat qsum fold_right].
  - apply Qcle_refl.
  - rewrite <- (Qcplus_0_l 0) at 1.
    apply Qcplus_le_compat; [exact Qc_zero_le_one | exact IH].
Qed.

(** A sum of [k] ones is 1 only for [k = 1]. *)
Lemma qsum_repeat_one_eq (k : nat) : qsum (repeat 1 k) = 1 <-> k = 1%nat.
Proof.
  split.
  - destruct k as [|[|k]]; [| reflexivity |].
    + cbn [repeat qsum fold_right]. intros H. symmetry in H.
      now apply Q_apart_0_1 in H.
    + change (qsum (repeat 1 (S (S k))))
        with (1 + (1 + qsum (repeat 1 k))).
      intros H. exfalso.
      assert (H0 : 1 + qsum (repeat 1 k) = 0).
      { transitivity (1 + (1 + qsum (repeat 1 k)) - 1); [ring|].
        rewrite H. ring. }
      assert (Hpos : 0 < 1 + qsum (repeat 1 k)).
      { apply Qclt_le_trans with 1.
        - unfold Qclt. cbn. reflexivity.
        - rewrite <- (Qcplus_0_r 1) at 1.
          apply Qcplus_le_compat;
            [apply Qcle_refl | apply qsum_repeat_one_nonneg]. }
      apply Qclt_not_eq in Hpos. now symmetry in H0.
  - intros ->. cbn [repeat qsum fold_right]. ring.
Qed.
End CountOfOnes.

(** X3.  In every call of the solver made by [_minimize_objective] the
    initial guess has one entry per security and per bound, and each entry
    is the upper bound of its weight, or NaN. *)
Theorem initial_guess_matches_bounds
    (objective : vec -> result float64) (n_securities : Z)
    (non_negative_weights : option bool) (kw : minimize_kwargs) :
  calls_minimize
    (_minimize_objective objective n_securities non_negative_weights) kw ->
  Z.of_nat (length (x0 kw)) = n_securities
  /\ length (x0 kw) = length (bounds kw)
  /\ forall i v b,
       nth_error (x0 kw) i = Some v ->
       nth_error (bounds kw) i = Some b ->
       v = snd b \/ v = NaN.
Proof.
  intros H. apply calls_minimize_inv in H as (Hn & d & Hd & ->).
  apply random_draw_inv in Hd as [Hlen Hd].
  cbn [x0 bounds solver_arguments].
  rewrite length_itruediv_self, length_map, Hlen.
  unfold range. rewrite length_map, length_seq.
  split; [lia|]. split; [reflexivity|].
  intros i v b Hv Hb.
  apply nth_error_In in Hb. apply in_map_iff in Hb as (j & <- & _).
  rewrite (itruediv_self d Hd) in Hv.
  apply nth_error_In in Hv. apply in_map_iff in Hv as (u & <- & _).
  cbn [snd]. destruct (float64_eqb u (Fin 0%Qc)); [now right | now left].
Qed.

Lemma initial_guess_matches_bounds_witness :
  Z.of_nat (length (x0 (kwargs2 raising_objective))) = 2%Z
  /\ length (x0 (kwargs2 raising_objective)) =
     length (bounds (kwargs2 raising_objective))
  /\ forall i v b,
       nth_error (x0 (kwargs2 raising_objective)) i = Some v ->
       nth_error (bounds (kwargs2 raising_objective)) i = Some b ->
       v = snd b \/ v = NaN.
Proof.
  apply (initial_guess_matches_bounds raising_objective 2 None).
  apply calls_minimize_kwargs2.
Defined.

(** X4.  At an initial guess without NaN the constraint handed to the
    solver has the value zero exactly when there is one security: for any
    other count the all-ones initial guess does not sum to 1. *)
Theorem initial_guess_feasible_iff_one_security
    (objective : vec -> result float64) (n_securities : Z)
    (non_negative_weights : option bool) (kw : minimize_kwargs)
    (c : constraint) :
  calls_minimize
    (_minimize_objective objective n_securities non_negative_weights) kw ->
  In c (constraints kw) ->
  forallb is_finite (x0 kw) = true ->
  (cfun c (x0 kw) = Fin 0%Qc <-> n_securities = 1%Z).
Proof.
  intros H Hc Hfin. apply calls_minimize_inv in H as (Hn & d & Hd & ->).
  apply random_draw_inv in Hd as [Hlen Hd].
  cbn [constraints x0 solver_arguments] in *.
  destruct Hc as [<-|[]]. cbn [cfun].
  rewrite sum_to_one_zero, (finite_self_division d Hd Hfin), py_sum_of_reals.
  split.
  - intros E. apply Fin_inj, qsum_repeat_one_eq in E. lia.
  - intros E. apply f_equal. apply qsum_repeat_one_eq. lia.
Qed.

Lemma initial_guess_feasible_iff_one_security_witness :
  cfun {| type_ := eq_type; cfun := sum_to_one |}
       (x0 (kwargs2 raising_objective)) = Fin 0%Qc <-> 2%Z = 1%Z.
Proof.
  apply (initial_guess_feasible_iff_one_security raising_objective 2 None
           (kw := kwargs2 raising_objective)).
  - apply calls_minimize_kwargs2.
  - left. reflexivity.
  - reflexivity.
Defined.

(** * Further properties of a run *)

(** X5.  The result of [_minimize_objective] does not depend on what the
    generator draws, as long as no drawn entry is zero: two runs from
    generator states with such draws return the same result under one
    solver. *)
Theorem result_independent_of_nonzero_draw (rng_state : Type)
    (random_sample : nat -> rng_state -> vec * rng_state)
    (minimize : minimize_kwargs -> result OptimizeResult)
    (objective : vec -> result float64) (n_securities : Z)
    (non_negative_weights : option bool) (st1 st2 : rng_state) :
  random_draw (Z.to_nat n_securities)
              (fst (random_sample (Z.to_nat n_securities) st1)) = true ->
  random_draw (Z.to_nat n_securities)
              (fst (random_sample (Z.to_nat n_securities) st2)) = true ->
  (forall v, In v (fst (random_sample (Z.to_nat n_securities) st1)) ->
             v <> Fin 0%Qc) ->
  (forall v, In v (fst (random_sample (Z.to_nat n_securities) st2)) ->
             v <> Fin 0%Qc) ->
  fst (run random_sample minimize
         (_minimize_objective objective n_securities non_negative_weights)
         st1) =
  fst (run random_sample minimize
         (_minimize_objective objective n_securities non_negative_weights)
         st2).
Proof.
  intros Hd1 Hd2 Hnz1 Hnz2. rewrite !run_minimize_objective.
  destruct (n_securities <? 0)%Z; [reflexivity|].
  destruct (random_sample (Z.to_nat n_securities) st1) as [d1 st1'].
  destruct (random_sample (Z.to_nat n_securities) st2) as [d2 st2'].
  cbn [fst] in *.
  apply random_draw_inv in Hd1 as [Hl1 Hd1], Hd2 as [Hl2 Hd2].
  unfold solver_arguments.
  rewrite (itruediv_nonzero d1 Hd1 Hnz1), (itruediv_nonzero d2 Hd2 Hnz2).
  now rewrite Hl1, Hl2.
Qed.

Lemma repeat_nonzero (q : Qc) (n : nat) (v : float64) :
  q <> 0%Qc -> In v (repeat (Fin q) n) -> v <> Fin 0%Qc.
Proof.
  intros Hq Hv. apply repeat_spec in Hv as ->.
  intros E. now apply Fin_inj in E.
Qed.

Lemma half_nonzero : half <> 0%Qc.
Proof. intros E. apply (f_equal this) in E. discriminate. Qed.

Lemma quarter_nonzero : quarter <> 0%Qc.
Proof. intros E. apply (f_equal this) in E. discriminate. Qed.

Lemma result_independent_of_nonzero_draw_witness :
  fst (run constant_rng (zero_step_solver true)
         (_minimize_objective (min_risk_objective (of_real_matrix 2 identity2))
                              2 None) (Fin half)) =
  fst (run constant_rng (zero_step_solver true)
         (_minimize_objective (min_risk_objective (of_real_matrix 2 identity2))
                              2 None) (Fin quarter)).
Proof.
  apply (@result_independent_of_nonzero_draw float64 constant_rng
           (zero_step_solver true)
           (min_risk_objective (of_real_matrix 2 identity2)) 2 None
           (Fin half) (Fin quarter) eq_refl eq_refl).
  - intros v. apply (@repeat_nonzero half 2 v half_nonzero).
  - intros v. apply (@repeat_nonzero quarter 2 v quarter_nonzero).
Defined.

(** X6.  A negative security count is refused before anything else
    happens: [_minimize_objective] raises ValueError, leaves the generator
    state as it was, and never calls the solver. *)
Theorem negative_count_raises (rng_state : Type)
    (random_sample : nat -> rng_state -> vec * rng_state)
    (minimize : minimize_kwargs -> result OptimizeResult)
    (objective : vec -> result float64) (n_securities : Z)
    (non_negative_weights : option bool) (st : rng_state) :
  (n_securities < 0)%Z ->
  run random_sample minimize
      (_minimize_objective objective n_securities non_negative_weights) st =
    (Raise ValueError, st)
  /\ forall kw,
       ~ calls_minimize
           (_minimize_objective objective n_securities non_negative_weights)
           kw.
Proof.
  intros Hneg. split.
  - rewrite run_minimize_objective.
    now apply Z.ltb_lt in Hneg as ->.
  - intros kw H. apply calls_minimize_inv in H as [Hn _]. lia.
Qed.

Lemma negative_count_raises_witness :
  run constant_rng (zero_step_solver true)
      (_minimize_objective raising_objective (-1) None) (Fin half) =
    (Raise ValueError, Fin half)
  /\ forall kw,
       ~ calls_minimize (_minimize_objective raising_objective (-1) None) kw.
Proof.
  apply (@negative_count_raises float64 constant_rng (zero_step_solver true)
           raising_objective (-1) None (Fin half)).
  reflexivity.
Defined.

(** X7.  [_minimize_objective] does not catch anything: an exception that
    the solver raises, of whatever class, is the outcome of the call, after
    the one draw from the generator. *)
Theorem solver_exception_propagates (rng_state : Type)
    (random_sample : nat -> rng_state -> vec * rng_state)
    (minimize : minimize_kwargs -> result OptimizeResult)
    (objective : vec -> result float64) (n_securities : Z)
    (non_negative_weights : option bool) (st st' : rng_state) (d : vec)
    (e : exn) :
  (0 <= n_securities)%Z ->
  random_sample (Z.to_nat n_securities) st = (d, st') ->
  minimize (solver_arguments objective n_securities non_negative_weights d) =
    Raise e ->
  run random_sample minimize
      (_minimize_objective objective n_securities non_negative_weights) st =
    (Raise e, st').
Proof.
  intros Hn Hd He. rewrite run_minimize_objective.
  destruct (Z.ltb_spec n_securities 0) as [Hneg|_]; [lia|].
  now rewrite Hd, He.
Qed.

Lemma solver_exception_propagates_witness :
  run constant_rng (zero_step_solver true)
      (_minimize_objective raising_objective 2 None) (Fin half) =
    (Raise (OtherException "FloatingPointError"), Fin half).
Proof.
  apply (@solver_exception_propagates float64 constant_rng
           (zero_step_solver true) raising_objective 2 None
           (Fin half) (Fin half) [Fin half; Fin half]
           (OtherException "FloatingPointError")).
  - discriminate.
  - reflexivity.
  - reflexivity.
Defined.

(** X8.  For one covariance array, [min_risk] and [max_sharpe] make the
    same calls of the solver up to the objective: whatever bounds,
    constraints and initial guess [min_risk] hands over, [max_sharpe] hands
    over with its own objective. *)
Theorem public_calls_differ_in_objective_only
    (expected_returns : vec) (covariance : ndarray2) (kw : minimize_kwargs) :
  calls_minimize (min_risk expected_returns covariance) kw ->
  fun_ kw = min_risk_objective covariance
  /\ calls_minimize (max_sharpe expected_returns covariance)
       {| fun_ := max_sharpe_objective expected_returns covariance;
          bounds := bounds kw;
          constraints := constraints kw;
          x0 := x0 kw |}.
Proof.
  intros H. unfold min_risk in H.
  apply calls_minimize_inv in H as (_ & d & Hd & ->).
  split; [reflexivity|].
  rewrite Nat2Z.id in Hd.
  exact (calls_minimize_intro
           (max_sharpe_objective expected_returns covariance)
           (shape0 covariance) None d Hd).
Qed.

Lemma public_calls_differ_in_objective_only_witness :
  fun_ (kwargs2 (min_risk_objective (of_real_matrix 2 identity2))) =
    min_risk_objective (of_real_matrix 2 identity2)
  /\ calls_minimize (max_sharpe [] (of_real_matrix 2 identity2))
       {| fun_ := max_sharpe_objective [] (of_real_matrix 2 identity2);
          bounds := bounds (kwargs2 (min_risk_objective
                                       (of_real_matrix 2 identity2)));
          constraints := constraints (kwargs2 (min_risk_objective
                                       (of_real_matrix 2 identity2)));
          x0 := x0 (kwargs2 (min_risk_objective
                               (of_real_matrix 2 identity2))) |}.
Proof.
  apply (public_calls_differ_in_objective_only [] (of_real_matrix 2 identity2)).
  apply calls_minimize_kwargs2.
Defined.

(** X9.  On a covariance array without rows both public functions still
    call the solver, with an empty initial guess and no bounds, and with a
    constraint whose value at that guess is 1: no weight vector of length
    zero sums to 1. *)
Theorem no_securities_is_infeasible
    (expected_returns : vec) (covariance : ndarray2) :
  shape0 covariance = 0%nat ->
  calls_minimize (min_risk expected_returns covariance)
    (solver_arguments (min_risk_objective covariance) 0 None [])
  /\ calls_minimize (max_sharpe expected_returns covariance)
       (solver_arguments (max_sharpe_objective expected_returns covariance)
                         0 None [])
  /\ forall kw,
       calls_minimize (min_risk expected_returns covariance) kw \/
       calls_minimize (max_sharpe expected_returns covariance) kw ->
       x0 kw = [] /\ bounds kw = []
       /\ forall c, In c (constraints kw) -> cfun c (x0 kw) = Fin 1%Qc.
Proof.
  intros H0. unfold min_risk, max_sharpe. rewrite H0.
  split; [exact (calls_minimize_intro _ 0 None [] eq_refl)|].
  split; [exact (calls_minimize_intro _ 0 None [] eq_refl)|].
  intros kw [H|H]; apply calls_minimize_inv in H as (_ & d & Hd & ->);
    apply random_draw_inv in Hd as [Hlen _];
    apply length_zero_iff_nil in Hlen; subst d;
    (split; [reflexivity|]); (split; [reflexivity|]);
    intros c [<-|[]]; cbn [cfun];
    unfold sum_to_one, py_sum, fsub; cbn [fold_left fneg fadd];
    apply f_equal; ring.
Qed.

Lemma no_securities_is_infeasible_witness :
  shape0 (of_real_matrix 0 []) = 0%nat
  /\ forall kw,
       calls_minimize (min_risk [] (of_real_matrix 0 [])) kw \/
       calls_minimize (max_sharpe [] (of_real_matrix 0 [])) kw ->
       x0 kw = [] /\ bounds kw = []
       /\ forall c, In c (constraints kw) -> cfun c (x0 kw) = Fin 1%Qc.
Proof.
  split; [reflexivity|].
  apply (proj2 (proj2 (no_securities_is_infeasible [] (of_real_matrix 0 [])
                         eq_refl))).
Defined.

(** * NaN in the weights *)

Lemma fadd_nan_r (a : float64) : fadd a NaN = NaN.
Proof. now destruct a. Qed.

Lemma fmul_nan_r (a : float64) : fmul a NaN = NaN.
Proof. now destruct a. Qed.

Lemma fdiv_nan_r (a : float64) : fdiv a NaN = NaN.
Proof. now destruct a. Qed.

Lemma fold_left_fadd_nan (l : vec) : fold_left fadd l NaN = NaN.
Proof. induction l as [|v l IH]; [reflexivity | exact IH]. Qed.

Lemma py_sum_nan (l : vec) : In NaN l -> py_sum l = NaN.
Proof.
  unfold py_sum. generalize (Fin 0%Qc) as a.
  induction l as [|v l IH]; intros a H; [destruct H|].
  destruct H as [Hv|Hl]; cbn [fold_left].
  - subst v. rewrite fadd_nan_r. apply fold_left_fadd_nan.
  - now apply IH.
Qed.

Lemma in_getitem (w : vec) (v : float64) :
  In v w -> exists i, (i < length w)%nat /\ getitem w i = v.
Proof. intros H. unfold getitem. now apply In_nth. Qed.

Lemma in_map_seq {A} (f : nat -> A) (n i : nat) :
  (i < n)%nat -> In (f i) (map f (seq 0 n)).
Proof. intros Hi. apply in_map, in_seq. lia. Qed.

(** One NaN among the weights makes the quadratic form NaN, whatever the
    entries of the array. *)
Lemma min_risk_objective_nan (covariance : ndarray2) (w : vec) :
  length w = shape0 covariance ->
  shape1 covariance = shape0 covariance ->
  In NaN w ->
  min_risk_objective covariance w = Ok NaN.
Proof.
  intros Hw Hsq Hnan.
  apply in_getitem in Hnan as (i0 & Hi0 & Hget).
  unfold min_risk_objective, T, matmul_1d_2d.
  rewrite Hw, Nat.eqb_refl. cbn [rbind].
  unfold matmul_1d_1d, dot_1d_1d.
  rewrite length_map, length_seq, Hsq, Hw, Nat.eqb_refl.
  apply f_equal. apply py_sum_nan.
  rewrite <- Hw, <- (fmul_nan_r (getitem
    (map (fun j => py_sum (map (fun i => fmul (getitem w i)
                                             (getitem2 covariance i j))
                               (seq 0 (length w))))
         (seq 0 (length w))) i0)), <- Hget.
  exact (in_map_seq (fun i => fmul (getitem _ i) (getitem w i)) Hi0).
Qed.

(** X12.  When the generator draws a zero, the initial guess handed to the
    solver contains NaN, and both objectives are NaN at it (square
    covariance array of matching size, whatever its entries). *)
Theorem zero_draw_poisons_initial_guess
    (expected_returns : vec) (covariance : ndarray2) (d : vec) :
  random_draw (shape0 covariance) d = true ->
  shape1 covariance = shape0 covariance ->
  In (Fin 0%Qc) d ->
  calls_minimize (min_risk expected_returns covariance)
    (solver_arguments (min_risk_objective covariance)
                      (Z.of_nat (shape0 covariance)) None d)
  /\ In NaN (itruediv d d)
  /\ min_risk_objective covariance (itruediv d d) = Ok NaN
  /\ (length expected_returns = shape0 covariance ->
      max_sharpe_objective expected_returns covariance (itruediv d d) =
        Ok NaN).
Proof.
  intros Hd Hsq Hzero.
  split; [exact (calls_minimize_intro _ _ None d Hd)|].
  apply random_draw_inv in Hd as [Hlen Hd].
  assert (Hnan : In NaN (itruediv d d)).
  { rewrite (itruediv_self d Hd).
    apply in_map_iff. exists (Fin 0%Qc). split; [|exact Hzero].
    cbn [float64_eqb]. unfold Qc_eq_bool.
    now destruct (Qc_eq_dec 0 0) as [_|N]; [|elim N]. }
  assert (Hlen' : length (itruediv d d) = shape0 covariance)
    by now rewrite length_itruediv_self.
  assert (Hobj : min_risk_objective covariance (itruediv d d) = Ok NaN)
    by now apply min_risk_objective_nan.
  split; [exact Hnan|]. split; [exact Hobj|].
  intros Hr. rewrite max_sharpe_objective_eq, Hobj.
  unfold np_dot, dot_1d_1d. rewrite Hlen', Hr, Nat.eqb_refl.
  cbn [rbind]. now rewrite fdiv_nan_r.
Qed.

Lemma zero_draw_poisons_initial_guess_witness :
  random_draw (shape0 (of_real_matrix 2 identity2)) [Fin 0%Qc; Fin half] = true
  /\ min_risk_objective (of_real_matrix 2 identity2)
       (itruediv [Fin 0%Qc; Fin half] [Fin 0%Qc; Fin half]) = Ok NaN.
Proof.
  split; [reflexivity|].
  apply (proj1 (proj2 (proj2
    (zero_draw_poisons_initial_guess [] (of_real_matrix 2 identity2)
       [Fin 0%Qc; Fin half] eq_refl eq_refl (or_introl eq_refl))))).
Defined.

(** * setup.py: stripping *)

Section Strip.
Variable p : N -> bool.

Lemma dropwhile_head (s t : str) (c : N) :
  dropwhile p s = c :: t -> p c = false.
Proof.
  induction s as [|a s IH]; [discriminate|]. cbn [dropwhile].
  destruct (p a) eqn:Ha; [exact IH|].
  intros [= <- _]. exact Ha.
Qed.

Lemma dropwhile_In (s : str) (c : N) : In c (dropwhile p s) -> In c s.
Proof.
  induction s as [|a s IH]; [easy|]. cbn [dropwhile].
  destruct (p a); [intros H; right; now apply IH | easy].
Qed.

Lemma dropwhile_all (a s : str) :
  forallb p a = true -> dropwhile p (a ++ s) = dropwhile p s.
Proof.
  induction a as [|c a IH]; [reflexivity|]. cbn [forallb app dropwhile].
  intros H. apply andb_prop in H as [-> Ha]. now apply IH.
Qed.

Lemma dropwhile_stop (s : str) (c : N) (t : str) :
  p c = false -> dropwhile p (s ++ c :: t) = dropwhile p s ++ c :: t.
Proof.
  intros Hc. induction s as [|a s IH]; cbn [app dropwhile].
  - now rewrite Hc.
  - destruct (p a); [exact IH | reflexivity].
Qed.

Lemma dropwhile_fixed (c : N) (t : str) :
  p c = false -> dropwhile p (c :: t) = c :: t.
Proof. intros Hc. cbn [dropwhile]. now rewrite Hc. Qed.

(** What is left after stripping does not begin with a stripped
    character... *)
Lemma strip_of_head (s t : str) (c : N) :
  strip_of p s = c :: t -> p c = false.
Proof.
  unfold strip_of.
  destruct (dropwhile p s) as [|a u] eqn:E; [discriminate|].
  pose proof (dropwhile_head _ E) as Ha.
  cbn [rev]. rewrite (dropwhile_stop (rev u) [] Ha), rev_app_distr.
  cbn [rev app]. now intros [= <- _].
Qed.

(** ... and does not end with one. *)
Lemma strip_of_last (s t : str) (c : N) :
  strip_of p s = t ++ [c] -> p c = false.
Proof.
  unfold strip_of.
  destruct (dropwhile p (rev (dropwhile p s))) as [|a u] eqn:E.
  - now destruct t.
  - cbn [rev]. intros H. apply app_inj_tail in H as [_ <-].
    exact (dropwhile_head _ E).
Qed.

Lemma strip_of_In (s : str) (c : N) : In c (strip_of p s) -> In c s.
Proof.
  unfold strip_of. intros H.
  apply in_rev, dropwhile_In, in_rev in H. now apply dropwhile_In in H.
Qed.

(** A string that begins and ends with characters that are kept is left
    as it is. *)
Lemma strip_of_clean (s : str) :
  (forall c t, s = c :: t -> p c = false) ->
  (forall t c, s = t ++ [c] -> p c = false) ->
  strip_of p s = s.
Proof.
  intros Hhead Hlast. unfold strip_of.
  destruct s as [|c t]; [reflexivity|].
  rewrite (dropwhile_fixed t (Hhead c t eq_refl)).
  destruct (rev (c :: t)) as [|a u] eqn:E.
  - apply (f_equal (@length N)) in E. rewrite length_rev in E. discriminate.
  - rewrite dropwhile_fixed.
    + now rewrite <- E, rev_involutive.
    + apply (Hlast (rev u) a).
      now rewrite <- (rev_involutive (c :: t)), E.
Qed.

Lemma strip_of_idempotent (s : str) :
  strip_of p (strip_of p s) = strip_of p s.
Proof.
  apply strip_of_clean.
  - intros c t. apply strip_of_head.
  - intros t c. apply strip_of_last.
Qed.

(** Stripping removes a wrapping made of stripped characters. *)
Lemma strip_of_wrapped (a b s : str) :
  forallb p a = true -> forallb p b = true ->
  strip_of p s = s ->
  strip_of p (a ++ s ++ b) = s.
Proof.
  intros Ha Hb Hs. unfold strip_of. rewrite (dropwhile_all a _ Ha).
  destruct s as [|c t].
  - cbn [app]. rewrite <- (app_nil_r b), (dropwhile_all b _ Hb). reflexivity.
  - assert (Hc : p c = false) by exact (strip_of_head (c :: t) Hs).
    cbn [app]. rewrite (dropwhile_fixed _ Hc).
    change (c :: t ++ b) with ((c :: t) ++ b).
    rewrite rev_app_distr, dropwhile_all
      by (rewrite forallb_forall in *; intros y Hy; apply Hb; now apply in_rev).
    unfold strip_of in Hs. rewrite (dropwhile_fixed _ Hc) in Hs.
    exact Hs.
Qed.
End Strip.

(** * setup.py: the requirements *)

Lemma filter_filter_implied {A} (f g : A -> bool) (l : list A) :
  (forall a, f a = true -> g a = true) ->
  filter f (filter g l) = filter f l.
Proof.
  intros H. induction l as [|a l IH]; [reflexivity|]. cbn [filter].
  destruct (g a) eqn:Hg; cbn [filter].
  - now rewrite IH.
  - destruct (f a) eqn:Hf; [|exact IH].
    apply H in Hf. congruence.
Qed.

Lemma truthy_nonempty (s : str) : truthy s = true -> s <> [].
Proof. now destruct s. Qed.

Lemma startswith_nonempty (c : N) (prefix s : str) :
  startswith (c :: prefix) s = true -> truthy s = true.
Proof. now destruct s. Qed.

(** X13.  The second [f.readlines()] on the open requirements file finds
    nothing left, so the list of git requirements is empty and no
    [pip install] is run; and as lines that start with [git+] are kept out of
    [install_requires] as well, deleting them from the file changes nothing of
    what the script does. *)
Theorem git_requirements_have_no_effect
    (sys_executable readme : str) (requirements_txt init_py : text_file) :
  snd (read_requirements requirements_txt) = []
  /\ pip_installs sys_executable (snd (read_requirements requirements_txt)) = []
  /\ setup_py sys_executable readme requirements_txt init_py =
     setup_py sys_executable readme
       (filter (fun r => negb (startswith (lit "git+") r)) requirements_txt)
       init_py.
Proof.
  split; [reflexivity|]. split; [reflexivity|].
  unfold setup_py, read_requirements, readlines. cbn [filter map pip_installs].
  rewrite filter_filter_implied; [reflexivity|].
  intros r H. now apply andb_prop in H as [_ H].
Qed.

(** X14.  Every entry of [install_requires] is a non-empty string without
    leading or trailing whitespace, the stripped form of a line of the file
    that does not start with [git+]. *)
Theorem requirements_are_stripped_lines (f : text_file) (e : str) :
  In e (fst (read_requirements f)) ->
  e <> []
  /\ str_strip e = e
  /\ exists r, In r f /\ e = str_strip r
               /\ startswith (lit "git+") r = false.
Proof.
  unfold read_requirements, readlines. cbn [fst]. intros H.
  apply in_map_iff in H as (r & <- & Hr).
  apply filter_In in Hr as [Hr Hkeep].
  apply andb_prop in Hkeep as [Hne Hgit].
  split; [now apply truthy_nonempty|].
  split; [apply strip_of_idempotent|].
  exists r. repeat split; [exact Hr|].
  now apply negb_true_iff in Hgit.
Qed.

Lemma requirements_are_stripped_lines_witness :
  In (lit "numpy") (fst (read_requirements requirements_sample))
  /\ str_strip (lit "numpy") = lit "numpy".
Proof.
  assert (H : In (lit "numpy") (fst (read_requirements requirements_sample)))
    by (left; reflexivity).
  split; [exact H|].
  apply (proj1 (proj2 (@requirements_are_stripped_lines requirements_sample
                         (lit "numpy") H))).
Defined.

(** X15.  The test for [git+] reads the line before it is stripped: a git
    requirement that is indented is not recognised and goes into
    [install_requires] as it stands. *)
Theorem indented_git_requirement_is_kept (f : text_file) (r : str) :
  In r f ->
  startswith (lit "git+") r = false ->
  startswith (lit "git+") (str_strip r) = true ->
  In (str_strip r) (fst (read_requirements f)).
Proof.
  intros Hr Hraw Hstripped.
  unfold read_requirements, readlines. cbn [fst].
  apply in_map, filter_In. split; [exact Hr|].
  rewrite Hraw. cbn [negb]. rewrite andb_true_r.
  unfold lit in Hstripped. cbn [list_ascii_of_string map] in Hstripped.
  exact (startswith_nonempty _ _ _ Hstripped).
Qed.

Lemma indented_git_requirement_is_kept_witness :
  In (lit "git+https://example.org/other.git")
     (fst (read_requirements requirements_sample)).
Proof.
  apply (@indented_git_requirement_is_kept requirements_sample
           (lit "  git+https://example.org/other.git" ++ newline)).
  - right. right. left. reflexivity.
  - reflexivity.
  - reflexivity.
Defined.

(** * setup.py: the version *)

Lemma str_split_nonempty (sep : N) (s : str) : str_split sep s <> [].
Proof.
  destruct s as [|c s]; cbn [str_split]; [discriminate|].
  destruct (N.eqb c sep); [discriminate|].
  now destruct (str_split sep s).
Qed.

(** No part of a split contains the separator. *)
Lemma str_split_parts (sep : N) (s part : str) :
  In part (str_split sep s) -> ~ In sep part.
Proof.
  revert part. induction s as [|c s IH]; intros part; cbn [str_split].
  - intros [<-|[]]. easy.
  - destruct (N.eqb_spec c sep) as [->|Hc].
    + intros [<-|H]; [easy | now apply IH].
    + destruct (str_split sep s) as [|q qs].
      * intros [<-|[]] [E|[]]. now elim Hc.
      * intros [<-|H].
        -- intros [E|E]; [now elim Hc|]. apply (IH q); [now left | exact E].
        -- apply IH. now right.
Qed.

Lemma str_split_no_sep (sep : N) (s : str) :
  ~ In sep s -> str_split sep s = [s].
Proof.
  induction s as [|c s IH]; [reflexivity|]. intros H. cbn [str_split].
  destruct (N.eqb_spec c sep) as [->|_]; [elim H; now left|].
  rewrite IH; [reflexivity|]. intros E. apply H. now right.
Qed.

Lemma str_split_app (sep : N) (a b : str) :
  ~ In sep a -> str_split sep (a ++ sep :: b) = a :: str_split sep b.
Proof.
  induction a as [|c a IH]; intros H; cbn [app str_split].
  - now rewrite N.eqb_refl.
  - destruct (N.eqb_spec c sep) as [->|_]; [elim H; now left|].
    rewrite IH; [reflexivity|]. intros E. apply H. now right.
Qed.

Lemma last_In {A} (l : list A) (d : A) : l <> [] -> In (last l d) l.
Proof.
  induction l as [|a l IH]; [easy|]. intros _.
  destruct l as [|b l]; [now left|].
  right. apply IH. discriminate.
Qed.

Lemma next_filter_skip (pred : str -> bool) (pre : list str) (l : str)
    (post : list str) :
  (forall k, In k pre -> pred k = false) ->
  pred l = true ->
  next_filter pred (pre ++ l :: post) = Ok l.
Proof.
  intros Hpre Hl. unfold next_filter. rewrite filter_app.
  replace (filter pred pre) with (@nil str).
  - cbn [app filter]. now rewrite Hl.
  - symmetry. induction pre as [|k pre IH]; [reflexivity|].
    cbn [filter]. rewrite (Hpre k) by now left.
    apply IH. intros k' Hk'. apply Hpre. now right.
Qed.

Lemma next_filter_none (pred : str -> bool) (lines : list str) :
  next_filter pred lines = Raise (OtherException "StopIteration") <->
  forall l, In l lines -> pred l = false.
Proof.
  unfold next_filter. split.
  - destruct (filter pred lines) as [|k ks] eqn:E; [|discriminate].
    intros _ l Hl. destruct (pred l) eqn:Hp; [|reflexivity].
    assert (H : In l (filter pred lines)) by (apply filter_In; now split).
    rewrite E in H. destruct H.
  - intros H. destruct (filter pred lines) as [|k ks] eqn:E; [reflexivity|].
    assert (Hk : In k (filter pred lines)) by (rewrite E; now left).
    apply filter_In in Hk as [Hk Hp]. rewrite (H k Hk) in Hp. discriminate.
Qed.

Lemma next_filter_In (pred : str -> bool) (lines : list str) (l : str) :
  next_filter pred lines = Ok l -> In l lines /\ pred l = true.
Proof.
  unfold next_filter.
  destruct (filter pred lines) as [|k ks] eqn:E; [discriminate|].
  intros [= <-]. apply filter_In. rewrite E. now left.
Qed.

(** X16.  The script fails with StopIteration exactly when no line of
    [__init__.py] contains the word [version]; in particular on an empty
    file. *)
Theorem version_line_is_required
    (sys_executable readme : str) (requirements_txt init_py : text_file) :
  (read_version init_py = Raise (OtherException "StopIteration") <->
   forall l, In l init_py -> str_contains (lit "version") l = false)
  /\ (setup_py sys_executable readme requirements_txt init_py =
        Raise (OtherException "StopIteration") <->
      forall l, In l init_py -> str_contains (lit "version") l = false)
  /\ read_version [] = Raise (OtherException "StopIteration").
Proof.
  assert (Hv : read_version init_py = Raise (OtherException "StopIteration") <->
               forall l, In l init_py -> str_contains (lit "version") l = false).
  { pose proof (next_filter_none
                  (fun l => str_contains (lit "version") l) init_py) as Hn.
    unfold read_version, readlines.
    destruct (next_filter (fun l => str_contains (lit "version") l) init_py)
      as [l|e]; cbn [rbind]; [|exact Hn].
    split; [discriminate|]. intros H. apply Hn in H. discriminate. }
  split; [exact Hv|]. split; [|reflexivity].
  unfold setup_py.
  destruct (read_requirements requirements_txt) as [rq gq].
  destruct (read_version init_py) as [v|e]; cbn [rbind].
  - split; [discriminate|]. intros H. apply Hv in H. discriminate.
  - split; intros H.
    + apply Hv. congruence.
    + apply Hv in H. congruence.
Qed.

(** X17.  A version that the script obtains contains no equals sign and
    neither begins nor ends with a space, a quote, a double quote or a
    newline; it is the stripped text after the last equals sign of a line
    that contains the word [version]. *)
Theorem version_is_clean (init_py : text_file) (v : str) :
  read_version init_py = Ok v ->
  ~ In 61%N v
  /\ (forall c t, v = c :: t -> ~ In c version_strip_chars)
  /\ (forall t c, v = t ++ [c] -> ~ In c version_strip_chars)
  /\ exists l, In l init_py /\ str_contains (lit "version") l = true
               /\ v = str_strip_chars version_strip_chars
                        (last (str_split 61%N l) []).
Proof.
  unfold read_version, readlines.
  destruct (next_filter _ init_py) as [l|e] eqn:E; [|discriminate].
  cbn [rbind]. intros [= <-].
  apply next_filter_In in E.
  assert (Hmem : forall c, existsb (N.eqb c) version_strip_chars = false ->
                           ~ In c version_strip_chars).
  { intros c Hc Hin.
    assert (existsb (N.eqb c) version_strip_chars = true)
      by (apply existsb_exists; exists c; split; [exact Hin | apply N.eqb_refl]).
    congruence. }
  split; [|split; [|split]].
  - intros H. apply strip_of_In in H.
    apply (str_split_parts 61%N l) in H; [exact H|].
    apply last_In, str_split_nonempty.
  - intros c t H. apply Hmem. exact (@strip_of_head _ _ _ _ H).
  - intros t c H. apply Hmem. exact (@strip_of_last _ _ _ _ H).
  - exists l. destruct E as [Hin Hl]. now repeat split.
Qed.

Lemma version_is_clean_witness :
  read_version init_sample = Ok (lit "# conversion helpers")
  /\ ~ In 61%N (lit "# conversion helpers").
Proof.
  assert (H : read_version init_sample = Ok (lit "# conversion helpers"))
    by reflexivity.
  split; [exact H|].
  apply (proj1 (@version_is_clean init_sample (lit "# conversion helpers") H)).
Defined.

Lemma strip_chars_not_equals (a : str) :
  forallb (fun c => existsb (N.eqb c) version_strip_chars) a = true ->
  ~ In 61%N a.
Proof.
  intros Ha H. rewrite forallb_forall in Ha. apply Ha in H. discriminate.
Qed.

(** X18.  Lines after the first one that contains the word [version] are
    not looked at, and that first line need not be an assignment: the
    script takes whatever follows its last equals sign. *)
Theorem first_version_line_wins (pre : list str) (l : str) (post : list str) :
  (forall k, In k pre -> str_contains (lit "version") k = false) ->
  str_contains (lit "version") l = true ->
  read_version (pre ++ l :: post) = read_version [l]
  /\ read_version [l] =
     Ok (str_strip_chars version_strip_chars (last (str_split 61%N l) [])).
Proof.
  intros Hpre Hl.
  assert (H1 : read_version [l] =
               Ok (str_strip_chars version_strip_chars
                     (last (str_split 61%N l) []))).
  { unfold read_version, readlines, next_filter. cbn [filter].
    now rewrite Hl. }
  split; [|exact H1]. rewrite H1.
  unfold read_version, readlines.
  now rewrite (next_filter_skip (fun k => str_contains (lit "version") k)
                 pre l post Hpre Hl).
Qed.

Lemma first_version_line_wins_witness :
  str_contains (lit "version") (lit "# conversion helpers" ++ newline) = true
  /\ read_version init_sample =
     read_version [lit "# conversion helpers" ++ newline].
Proof.
  split; [reflexivity|].
  apply (proj1 (@first_version_line_wins []
                  (lit "# conversion helpers" ++ newline)
                  [lit "__version__ = '0.1.2'" ++ newline]
                  (fun k (H : In k []) => match H with end) eq_refl)).
Defined.

(** X19.  Round trip: when the first line that contains the word [version]
    is [__version__ =] followed by the version wrapped in spaces, quotes
    and a newline, the script reads exactly that version, provided it
    contains no equals sign and is not itself wrapped in such characters. *)
Theorem version_of_assignment (pre : list str) (a v b : str)
    (post : list str) :
  (forall k, In k pre -> str_contains (lit "version") k = false) ->
  forallb (fun c => existsb (N.eqb c) version_strip_chars) a = true ->
  forallb (fun c => existsb (N.eqb c) version_strip_chars) b = true ->
  ~ In 61%N v ->
  str_strip_chars version_strip_chars v = v ->
  read_version (pre ++ (lit "__version__ =" ++ a ++ v ++ b) :: post) = Ok v.
Proof.
  intros Hpre Ha Hb Hv Hclean.
  unfold read_version, readlines. cbv beta iota zeta.
  pose proof (next_filter_skip (fun k => str_contains (lit "version") k)
                pre (lit "__version__ =" ++ a ++ v ++ b) post Hpre eq_refl)
    as Hline.
  match goal with
  | |- rbind ?found _ = _ =>
      replace found with (Ok (lit "__version__ =" ++ a ++ v ++ b))
        by (symmetry; exact Hline)
  end.
  cbn [rbind]. apply f_equal.
  change (lit "__version__ =" ++ a ++ v ++ b)
    with (lit "__version__ " ++ 61%N :: (a ++ v ++ b)).
  rewrite str_split_app.
  - rewrite str_split_no_sep.
    + cbn [last]. now apply strip_of_wrapped.
    + intros H. apply in_app_or in H as [H|H];
        [now apply (strip_chars_not_equals a)|].
      apply in_app_or in H as [H|H]; [now apply Hv|].
      now apply (strip_chars_not_equals b).
  - intros H. cbv in H.
    repeat (destruct H as [H|H]; [discriminate H|]). exact H.
Qed.

Lemma version_of_assignment_witness :
  ~ In 61%N (lit "0.1.2")
  /\ read_version
       ([lit "# helpers" ++ newline] ++
        (lit "__version__ =" ++ lit " '" ++ lit "0.1.2" ++ (lit "'" ++ newline))
        :: []) = Ok (lit "0.1.2").
Proof.
  assert (Hv : ~ In 61%N (lit "0.1.2")).
  { intros H. cbv in H.
    repeat (destruct H as [H|H]; [discriminate H|]). exact H. }
  split; [exact Hv|].
  apply (@version_of_assignment [lit "# helpers" ++ newline]
           (lit " '") (lit "0.1.2") (lit "'" ++ newline) []).
  - intros k [<-|[]]. reflexivity.
  - reflexivity.
  - reflexivity.
  - exact Hv.
  - reflexivity.
Defined.
